(** * Resilience options: validation of the option mapping

    A shallow embedding of
    [qiskit_ibm_runtime/options/resilience_options.py] and the properties of
    [ResilienceOptions.validate_resilience_options].

    The method receives a Python [dict], reads it with [dict.get], iterates
    over its keys, may issue one deprecation warning and may raise.  The
    embedding keeps these as they are in the source: Python values are an
    inductive type, the mapping is an insertion-ordered association list,
    and the method is a computation in a state-and-exception monad whose
    state holds the mapping object and the warnings issued so far. *)

From Stdlib Require Import ZArith List String Ascii Bool Lia DecimalString.
From Stdlib Require Import Floats.SpecFloat.
From Stdlib Require Import Sorting.Permutation.
Import ListNotations.
Local Open Scope string_scope.
Local Open Scope Z_scope.
Local Set Warnings "-register-all".

(** ** Python values *)

Module Py.

(** The builtin values an option mapping can hold.  A [str] is a sequence of
    code points below 256; a [float] is an IEEE-754 value. *)
Inductive value : Type :=
| VNone
| VBool (b : bool)
| VInt (z : Z)
| VFloat (f : spec_float)
| VStr (s : string)
| VTuple (items : list value)
| VList (items : list value).

(** [bool(v)]: the truth value used by [or], [and] and [if]. *)
Definition truthy (v : value) : bool :=
  match v with
  | VNone => false
  | VBool b => b
  | VInt z => negb (z =? 0)
  | VFloat (S754_zero _) => false
  | VFloat _ => true
  | VStr EmptyString => false
  | VStr _ => true
  | VTuple [] | VList [] => false
  | VTuple _ | VList _ => true
  end.

(** [a or b] on values: [a] when it is truthy, [b] otherwise. *)
Definition py_or (a b : value) : value := if truthy a then a else b.

(** [v is None] *)
Definition is_None (v : value) : bool :=
  match v with VNone => true | _ => false end.

(** [v == s] for a [str] literal [s]: [str.__eq__] answers for a [str]
    operand only, every other builtin compares unequal to a [str]. *)
Definition eq_str (v : value) (s : string) : bool :=
  match v with VStr t => String.eqb t s | _ => false end.

(** [v in t] for a tuple [t] of [str] literals. *)
Definition py_in (v : value) (t : list string) : bool := existsb (eq_str v) t.

(** [type(v).__name__] *)
Definition type_name (v : value) : string :=
  match v with
  | VNone => "NoneType"
  | VBool _ => "bool"
  | VInt _ => "int"
  | VFloat _ => "float"
  | VStr _ => "str"
  | VTuple _ => "tuple"
  | VList _ => "list"
  end.

(** An f-string is a sequence of literal pieces and formatted values; an
    exception carries its message in this form, and [render] below gives the
    text. *)
Inductive fragment : Type :=
| Lit (text : string)
| Fmt (v : value).

Definition message : Type := list fragment.

Inductive exn : Type :=
| ValueError (msg : message)
| TypeError (msg : message).

(** The text of a message, where it is modelled.  [repr] is given for
    [None], [bool], [int] and for a [str] of printable ASCII characters
    without quote or backslash; [format] for these, for any [str], and for a
    tuple or list of them.  [None] stands for a text that is not modelled. *)
Definition plain (c : ascii) : bool :=
  let n := nat_of_ascii c in
  Nat.leb 32 n && Nat.leb n 126 && negb (Nat.eqb n 39) && negb (Nat.eqb n 92).

Definition repr_flat (v : value) : option string :=
  match v with
  | VNone => Some "None"
  | VBool true => Some "True"
  | VBool false => Some "False"
  | VInt z => Some (NilZero.string_of_int (Z.to_int z))
  | VStr s =>
      if forallb plain (list_ascii_of_string s)
      then Some ("'" ++ s ++ "'") else None
  | _ => None
  end.

Fixpoint repr_items (items : list value) : option (list string) :=
  match items with
  | [] => Some []
  | v :: rest =>
      match repr_flat v, repr_items rest with
      | Some x, Some xs => Some (x :: xs)
      | _, _ => None
      end
  end.

Definition format_value (v : value) : option string :=
  match v with
  | VStr s => Some s
  | VTuple items =>
      match repr_items items with
      | Some [x] => Some ("(" ++ x ++ ",)")
      | Some xs => Some ("(" ++ String.concat ", " xs ++ ")")
      | None => None
      end
  | VList items =>
      option_map (fun xs => "[" ++ String.concat ", " xs ++ "]")
        (repr_items items)
  | _ => repr_flat v
  end.

Fixpoint render (m : message) : option string :=
  match m with
  | [] => Some EmptyString
  | Lit text :: rest => option_map (String.append text) (render rest)
  | Fmt v :: rest =>
      match format_value v, render rest with
      | Some x, Some r => Some (x ++ r)
      | _, _ => None
      end
  end.

(** [str(e)] *)
Definition exn_text (e : exn) : option string :=
  match e with ValueError m | TypeError m => render m end.

(** The tuple of [str] a [Literal[...]] alias unpacks to, as a value. *)
Definition str_tuple (t : list string) : value := VTuple (map VStr t).

(** [len(v)]: defined on the sized builtins, a [TypeError] on the others. *)
Definition len (v : value) : exn + Z :=
  match v with
  | VStr s => inr (Z.of_nat (String.length s))
  | VTuple items | VList items => inr (Z.of_nat (List.length items))
  | _ => inl (TypeError
                [Lit ("object of type '" ++ type_name v ++ "' has no len()")])
  end.

(** A [dict]: the bindings in insertion order.  A Python [dict] binds a key
    at most once; [get] reads the first binding of a key. *)
Definition dict : Type := list (value * value).

(** The keys in iteration order. *)
Definition keys (d : dict) : list value := map fst d.

(** [d.get(k, default)] for a [str] literal [k] *)
Fixpoint get (d : dict) (k : string) (default : value) : value :=
  match d with
  | [] => default
  | (k', v) :: rest => if eq_str k' k then v else get rest k default
  end.

(** [k in d] for a [str] literal [k] *)
Definition has_key (d : dict) (k : string) : bool :=
  existsb (fun k' => eq_str k' k) (keys d).

End Py.
Import Py.

(** ** Deprecation warnings *)

Module Deprecation.

(** The keyword arguments of a call to [issue_deprecation_msg]. *)
Record notice : Type := {
  msg : string;
  version : string;
  period : string;
  remedy : string
}.

End Deprecation.

(** ** The state-and-exception monad

    The state is the mapping object bound to the parameter
    [resilience_options] together with the deprecation warnings issued so
    far.  A raised exception ends the computation and keeps the state
    reached. *)

Record state : Type := {
  resilience_options : dict;
  issued : list Deprecation.notice
}.

Definition M (A : Type) : Type := state -> (exn + A) * state.

Definition ret {A} (a : A) : M A := fun s => (inr a, s).

Definition bind {A B} (c : M A) (k : A -> M B) : M B :=
  fun s =>
    match c s with
    | (inr a, s') => k a s'
    | (inl e, s') => (inl e, s')
    end.

Definition raise {A} (e : exn) : M A := fun s => (inl e, s).

Notation "x <- c ;; k" := (bind c (fun x => k))
  (at level 61, c at next level, right associativity).
Notation "c ;; k" := (bind c (fun _ => k))
  (at level 61, right associativity).

(** [resilience_options.get(k, default)] *)
Definition options_get (k : string) (default : value) : M value :=
  fun s => (inr (get (resilience_options s) k default), s).

(** The keys a [for opt in resilience_options] loop visits. *)
Definition options_keys : M (list value) :=
  fun s => (inr (keys (resilience_options s)), s).

(** A result of [len], or its exception raised. *)
Definition lift {A} (r : exn + A) : M A :=
  match r with inr a => ret a | inl e => raise e end.

(** [for x in xs: body(x)] *)
Fixpoint for_each {A} (xs : list A) (body : A -> M unit) : M unit :=
  match xs with
  | [] => ret tt
  | x :: rest => body x ;; for_each rest body
  end.

(** [if c: body] *)
Definition when (c : bool) (body : M unit) : M unit :=
  if c then body else ret tt.

(** Modelled from the spec: [issue_deprecation_msg] of [utils/deprecation.py],
    which the method imports.  The spec gives it as the emission of one
    deprecation notice carrying the identifier, version, grace period and
    remedy, a side effect after which execution continues. *)
Definition issue_deprecation_msg (msg version period remedy : string) : M unit :=
  fun s =>
    (inr tt,
     {| resilience_options := resilience_options s;
        issued := issued s ++
          [{| Deprecation.msg := msg; Deprecation.version := version;
              Deprecation.period := period; Deprecation.remedy := remedy |}] |}).

(** ** The module [resilience_options] *)

Inductive literal : Type :=
| ResilienceSupportedOptions
| NoiseAmplifierType
| ExtrapolatorType.

(** [typing.get_args] on the three [Literal] aliases of the module. *)
Definition get_args (l : literal) : list string :=
  match l with
  | ResilienceSupportedOptions =>
      ["noise_amplifier"; "noise_factors"; "extrapolator"]
  | NoiseAmplifierType =>
      ["TwoQubitAmplifier"; "GlobalFoldingAmplifier"; "LocalFoldingAmplifier";
       "CxAmplifier"]
  | ExtrapolatorType =>
      ["LinearExtrapolator"; "QuadraticExtrapolator"; "CubicExtrapolator";
       "QuarticExtrapolator"]
  end.

(** The dataclass and its field defaults. *)
Record ResilienceOptions : Type := {
  noise_amplifier : value;
  noise_factors : value;
  extrapolator : value
}.

Definition ResilienceOptions_default : ResilienceOptions :=
  {| noise_amplifier := VNone;
     noise_factors := VTuple [VInt 1; VInt 3; VInt 5];
     extrapolator := VStr "LinearExtrapolator" |}.

(** The fields of an instance as a mapping, in declaration order. *)
Definition asdict (o : ResilienceOptions) : dict :=
  [(VStr "noise_amplifier", noise_amplifier o);
   (VStr "noise_factors", noise_factors o);
   (VStr "extrapolator", extrapolator o)].

Definition deprecation_remedy : string :=
  "After the deprecation period, only local folding amplification " ++
  "will be supported. " ++
  "Refer to https://github.com/qiskit-community/prototype-zne " ++
  "for global folding amplification in ZNE.".

(** [ResilienceOptions.validate_resilience_options] *)
Definition validate_resilience_options : M unit :=
  deprecated <- options_get "noise_amplifier" VNone ;;
  when (negb (is_None deprecated))
    (issue_deprecation_msg
       "The 'noise_amplifier' resilience option is deprecated"
       "0.12.0"
       "1 month"
       deprecation_remedy) ;;
  opts <- options_keys ;;
  for_each opts (fun opt =>
    when (negb (py_in opt (get_args ResilienceSupportedOptions)))
      (raise (ValueError
         [Lit "Unsupported value '"; Fmt opt; Lit "' for resilience."]))) ;;
  supplied <- options_get "noise_amplifier" VNone ;;
  let noise_amplifier := py_or supplied (VStr "TwoQubitAmplifier") in
  when (negb (py_in noise_amplifier (get_args NoiseAmplifierType)))
    (raise (ValueError
       [Lit "Unsupported value "; Fmt noise_amplifier;
        Lit " for noise_amplifier. ";
        Lit "Supported values are ";
        Fmt (str_tuple (get_args NoiseAmplifierType))])) ;;
  extrapolator <- options_get "extrapolator" VNone ;;
  when (negb (py_in extrapolator (get_args ExtrapolatorType)))
    (raise (ValueError
       [Lit "Unsupported value "; Fmt extrapolator;
        Lit " for extrapolator. ";
        Lit "Supported values are ";
        Fmt (str_tuple (get_args ExtrapolatorType))])) ;;
  too_few <- (if eq_str extrapolator "QuarticExtrapolator"
              then factors <- options_get "noise_factors" VNone ;;
                   n <- lift (len factors) ;;
                   ret (n <? 5)
              else ret false) ;;
  when too_few
    (raise (ValueError
       [Lit "QuarticExtrapolator requires at least 5 noise_factors."])) ;;
  too_few <- (if eq_str extrapolator "CubicExtrapolator"
              then factors <- options_get "noise_factors" VNone ;;
                   n <- lift (len factors) ;;
                   ret (n <? 4)
              else ret false) ;;
  when too_few
    (raise (ValueError
       [Lit "CubicExtrapolator requires at least 4 noise_factors."])).

(** Running the method on a mapping, with nothing issued before. *)
Definition run (d : dict) : (exn + unit) * state :=
  validate_resilience_options {| resilience_options := d; issued := [] |}.

Definition outcome (d : dict) : exn + unit := fst (run d).

Definition notices (d : dict) : list Deprecation.notice := issued (snd (run d)).

(** ** The error kinds of the specification

    All three are [ValueError]s in the source; they differ by their text. *)

(** An option key outside the recognised set; the text names the key. *)
Definition UnsupportedOptionError (opt : value) : exn :=
  ValueError [Lit "Unsupported value '"; Fmt opt; Lit "' for resilience."].

(** A value outside the legal set of an enumerated field; the text states
    the value and lists the legal set. *)
Definition UnsupportedValueError
    (field : string) (v : value) (legal : literal) : exn :=
  ValueError
    [Lit "Unsupported value "; Fmt v; Lit (" for " ++ field ++ ". ");
     Lit "Supported values are "; Fmt (str_tuple (get_args legal))].

(** Too few noise factors for the extrapolator: [minimum] is 5 for
    ["QuarticExtrapolator"] and 4 for ["CubicExtrapolator"]. *)
Definition InsufficientNoiseFactorsError (extrapolator minimum : string) : exn :=
  ValueError
    [Lit (extrapolator ++ " requires at least " ++ minimum ++ " noise_factors.")].

(** The three error kinds the specification declares. *)
Definition declared_error (e : exn) : Prop :=
  (exists opt, e = UnsupportedOptionError opt) \/
  (exists field v legal, e = UnsupportedValueError field v legal) \/
  (exists extrapolator minimum,
      e = InsufficientNoiseFactorsError extrapolator minimum).

(** ** What the method computes, check by check *)

Definition deprecation_notice : Deprecation.notice :=
  {| Deprecation.msg := "The 'noise_amplifier' resilience option is deprecated";
     Deprecation.version := "0.12.0";
     Deprecation.period := "1 month";
     Deprecation.remedy := deprecation_remedy |}.

(** The notices a call issues. *)
Definition emitted (d : dict) : list Deprecation.notice :=
  if is_None (get d "noise_amplifier" VNone) then [] else [deprecation_notice].

Definition supported_key (opt : value) : bool :=
  py_in opt (get_args ResilienceSupportedOptions).

(** Every key of the mapping is recognised. *)
Definition keys_supported (d : dict) : bool := forallb supported_key (keys d).

(** The first key, in iteration order, that is not recognised. *)
Definition first_unsupported (d : dict) : option value :=
  find (fun opt => negb (supported_key opt)) (keys d).

(** The noise amplifier the value check looks at. *)
Definition effective_noise_amplifier (d : dict) : value :=
  py_or (get d "noise_amplifier" VNone) (VStr "TwoQubitAmplifier").

(** The noise amplifier as the specification resolves it: the supplied
    value if present and non-null, otherwise the default. *)
Definition resolved_as_specified (d : dict) : value :=
  if is_None (get d "noise_amplifier" VNone)
  then VStr "TwoQubitAmplifier"
  else get d "noise_amplifier" VNone.

(** The minimum-length check of an extrapolator that asks for [minimum]
    noise factors. *)
Definition length_check
    (d : dict) (name digits : string) (minimum : Z) : exn + unit :=
  match len (get d "noise_factors" VNone) with
  | inl e => inl e
  | inr n =>
      if n <? minimum then inl (InsufficientNoiseFactorsError name digits)
      else inr tt
  end.

Definition checks (d : dict) : exn + unit :=
  match first_unsupported d with
  | Some opt => inl (UnsupportedOptionError opt)
  | None =>
      if negb (py_in (effective_noise_amplifier d) (get_args NoiseAmplifierType))
      then inl (UnsupportedValueError "noise_amplifier"
                  (effective_noise_amplifier d) NoiseAmplifierType)
      else if negb (py_in (get d "extrapolator" VNone) (get_args ExtrapolatorType))
      then inl (UnsupportedValueError "extrapolator"
                  (get d "extrapolator" VNone) ExtrapolatorType)
      else if eq_str (get d "extrapolator" VNone) "QuarticExtrapolator"
      then length_check d "QuarticExtrapolator" "5" 5
      else if eq_str (get d "extrapolator" VNone) "CubicExtrapolator"
      then length_check d "CubicExtrapolator" "4" 4
      else inr tt
  end.

(** The ways [checks] fails. *)
Inductive failure (d : dict) : exn -> Prop :=
| fail_key opt :
    first_unsupported d = Some opt ->
    failure d (UnsupportedOptionError opt)
| fail_amplifier :
    first_unsupported d = None ->
    py_in (effective_noise_amplifier d) (get_args NoiseAmplifierType) = false ->
    failure d (UnsupportedValueError "noise_amplifier"
                 (effective_noise_amplifier d) NoiseAmplifierType)
| fail_extrapolator :
    first_unsupported d = None ->
    py_in (get d "extrapolator" VNone) (get_args ExtrapolatorType) = false ->
    failure d (UnsupportedValueError "extrapolator"
                 (get d "extrapolator" VNone) ExtrapolatorType)
| fail_few name digits :
    first_unsupported d = None ->
    failure d (InsufficientNoiseFactorsError name digits)
| fail_len msg :
    first_unsupported d = None ->
    len (get d "noise_factors" VNone) = inl (TypeError msg) ->
    failure d (TypeError msg).

(** The [str] keys of a mapping, in iteration order.  A Python [dict] binds
    a [str] at most once. *)
Definition str_keys (d : dict) : list string :=
  flat_map (fun k => match k with VStr s => [s] | _ => [] end) (keys d).

Definition unique_str_keys (d : dict) : Prop := NoDup (str_keys d).

(** ** Mappings used as examples *)

Definition amplifier (v : value) : dict := [(VStr "noise_amplifier", v)].

Definition d_foo : dict := [(VStr "foo", VInt 1)].

Definition d_linear : dict := [(VStr "extrapolator", VStr "LinearExtrapolator")].

Definition d_linear_int : dict :=
  [(VStr "extrapolator", VStr "LinearExtrapolator"); (VStr "noise_factors", VInt 7)].

Definition d_bogus_amplifier : dict := amplifier (VStr "Bogus").

Definition d_bogus_extrapolator : dict := [(VStr "extrapolator", VStr "Bogus")].

Definition d_legal_amplifier : dict :=
  [(VStr "noise_amplifier", VStr "CxAmplifier");
   (VStr "extrapolator", VStr "LinearExtrapolator")].

Definition d_empty_amplifier : dict :=
  [(VStr "noise_amplifier", VStr EmptyString);
   (VStr "extrapolator", VStr "LinearExtrapolator")].

Definition d_foo_bogus : dict := (d_foo ++ amplifier (VStr "Bogus"))%list.

Definition d_quartic : dict := [(VStr "extrapolator", VStr "QuarticExtrapolator")].

Definition d_quartic_foo : dict := (d_quartic ++ d_foo)%list.

Definition d_quartic_bogus : dict := (d_quartic ++ amplifier (VStr "Bogus"))%list.

Definition d_quartic3 : dict :=
  [(VStr "extrapolator", VStr "QuarticExtrapolator");
   (VStr "noise_factors", VList [VInt 1; VInt 2; VInt 3])].

Definition d_quartic3_foo : dict := (d_quartic3 ++ d_foo)%list.

Definition d_quartic3_bogus : dict :=
  (d_quartic3 ++ amplifier (VStr "Bogus"))%list.

Definition d_cubic3 : dict :=
  [(VStr "extrapolator", VStr "CubicExtrapolator");
   (VStr "noise_factors", VList [VInt 1; VInt 2; VInt 3])].

Definition d_cubic3_foo : dict := (d_cubic3 ++ d_foo)%list.

Definition d_cubic3_bogus : dict := (d_cubic3 ++ amplifier (VStr "Bogus"))%list.

Definition d_cubic4 : dict :=
  [(VStr "extrapolator", VStr "CubicExtrapolator");
   (VStr "noise_factors", VList [VInt 1; VInt 2; VInt 3; VInt 4])].

Definition d_cubic_abcd : dict :=
  [(VStr "extrapolator", VStr "CubicExtrapolator"); (VStr "noise_factors", VStr "abcd")].

Ltac exn_inv H :=
  cbv [UnsupportedOptionError UnsupportedValueError
       InsufficientNoiseFactorsError] in H;
  simpl in H; inversion H.

Definition d_quartic_int : dict :=
  [(VStr "extrapolator", VStr "QuarticExtrapolator"); (VStr "noise_factors", VInt 5)].

Definition d_quartic5 : dict :=
  [(VStr "extrapolator", VStr "QuarticExtrapolator");
   (VStr "noise_factors", VTuple [VInt 1; VInt 3; VInt 5; VInt 7; VInt 9])].

Definition d_quartic5_rev : dict :=
  [(VStr "noise_factors", VTuple [VInt 1; VInt 3; VInt 5; VInt 7; VInt 9]);
   (VStr "extrapolator", VStr "QuarticExtrapolator")].

Definition d_quartic6 : dict :=
  [(VStr "extrapolator", VStr "QuarticExtrapolator");
   (VStr "noise_factors", VList [VInt 1; VInt 2; VInt 3; VInt 4; VInt 5; VInt 6])].

Definition d_cubic5 : dict :=
  [(VStr "extrapolator", VStr "CubicExtrapolator");
   (VStr "noise_factors", VTuple [VInt 1; VInt 3; VInt 5; VInt 7; VInt 9])].

Definition d_zero_amplifier : dict :=
  [(VStr "noise_amplifier", VInt 0); (VStr "extrapolator", VStr "LinearExtrapolator")].

Definition d_default_amplifier : dict :=
  [(VStr "noise_amplifier", VStr "TwoQubitAmplifier");
   (VStr "extrapolator", VStr "LinearExtrapolator")].

(** ** Basic facts *)

Lemma eq_str_true (v : value) (s : string) : eq_str v s = true <-> v = VStr s.
Proof.
  destruct v; simpl; try (split; [discriminate | intros H; inversion H]).
  rewrite String.eqb_eq. split; [intros -> | intros H; inversion H]; reflexivity.
Qed.

Lemma py_in_true (v : value) (t : list string) :
  py_in v t = true <-> exists s, In s t /\ v = VStr s.
Proof.
  unfold py_in. rewrite existsb_exists.
  split; intros [s [Hs Hv]]; exists s; split; auto; now apply eq_str_true.
Qed.

Lemma py_in_false (v : value) (t : list string) :
  py_in v t = false <-> ~ In v (map VStr t).
Proof.
  rewrite <- not_true_iff_false, py_in_true, in_map_iff.
  split; intros H [s Hs]; apply H; exists s; intuition congruence.
Qed.

Lemma get_absent (d : dict) (k : string) (default : value) :
  has_key d k = false -> get d k default = default.
Proof.
  unfold has_key, keys. induction d as [|[k' v] d IH]; simpl; [reflexivity|].
  destruct (eq_str k' k); simpl; [discriminate | exact IH].
Qed.

Lemma for_each_keys (ks : list value) (s : state) :
  for_each ks (fun opt =>
    when (negb (py_in opt (get_args ResilienceSupportedOptions)))
      (raise (ValueError
         [Lit "Unsupported value '"; Fmt opt; Lit "' for resilience."]))) s
  = match find (fun opt => negb (supported_key opt)) ks with
    | Some opt => (inl (UnsupportedOptionError opt), s)
    | None => (inr tt, s)
    end.
Proof.
  induction ks as [|k ks IH]; [reflexivity|].
  cbn [for_each find]. unfold bind at 1. unfold supported_key at 1.
  destruct (py_in k (get_args ResilienceSupportedOptions)); cbn.
  - exact IH.
  - reflexivity.
Qed.

(** The method issues [emitted], leaves the mapping as it is and ends as
    [checks] says. *)
Lemma validate_run (d : dict) (log : list Deprecation.notice) :
  validate_resilience_options {| resilience_options := d; issued := log |}
  = (checks d, {| resilience_options := d; issued := log ++ emitted d |}).
Proof.
  unfold validate_resilience_options, checks, emitted, first_unsupported,
    effective_noise_amplifier, length_check.
  unfold bind, options_get, options_keys, issue_deprecation_msg, when.
  cbn [resilience_options issued].
  destruct (is_None (get d "noise_amplifier" VNone));
    cbn [negb ret resilience_options issued];
    rewrite ?app_nil_r, for_each_keys;
    (destruct (find _ (keys d)); [reflexivity|]);
    cbn [resilience_options issued];
    (destruct (py_in (py_or _ _) _);
       cbn [negb raise ret resilience_options issued]; [|reflexivity]);
    (destruct (py_in (get d "extrapolator" VNone) _);
       cbn [negb raise ret resilience_options issued]; [|reflexivity]);
    (destruct (eq_str (get d "extrapolator" VNone) "QuarticExtrapolator") eqn:Q;
       [apply eq_str_true in Q; rewrite Q; cbn [eq_str String.eqb Ascii.eqb Bool.eqb andb]|]);
    try (destruct (eq_str (get d "extrapolator" VNone) "CubicExtrapolator"));
    cbn [resilience_options issued ret];
    try (destruct (len (get d "noise_factors" VNone)) as [e|n];
         cbn [lift raise ret]; [reflexivity|]; destruct (_ <? _));
    reflexivity.
Qed.

Lemma outcome_checks (d : dict) : outcome d = checks d.
Proof. unfold outcome, run. now rewrite validate_run. Qed.

Lemma notices_emitted (d : dict) : notices d = emitted d.
Proof. unfold notices, run. now rewrite validate_run. Qed.

Lemma first_unsupported_None (d : dict) :
  first_unsupported d = None <-> keys_supported d = true.
Proof.
  unfold first_unsupported, keys_supported. rewrite forallb_forall. split.
  - intros H opt Hin. apply (find_none _ _ H) in Hin.
    now apply negb_false_iff in Hin.
  - intros H. destruct (find _ (keys d)) as [opt|] eqn:F; [|reflexivity].
    apply find_some in F. destruct F as [Hin Hopt].
    rewrite (H opt Hin) in Hopt. discriminate.
Qed.

Lemma first_unsupported_Some (d : dict) (opt : value) :
  first_unsupported d = Some opt ->
  In opt (keys d) /\ ~ In opt (map VStr (get_args ResilienceSupportedOptions)).
Proof.
  unfold first_unsupported. intros F. apply find_some in F.
  destruct F as [Hin Hopt]. split; [exact Hin|].
  apply py_in_false. now apply negb_true_iff in Hopt.
Qed.

Lemma keys_supported_true (d : dict) :
  keys_supported d = true <->
  forall opt, In opt (keys d) ->
              In opt (map VStr (get_args ResilienceSupportedOptions)).
Proof.
  unfold keys_supported. rewrite forallb_forall.
  split; intros H opt Hin; specialize (H opt Hin).
  - unfold supported_key in H. apply py_in_true in H.
    destruct H as [s [Hs ->]]. now apply in_map.
  - unfold supported_key. apply py_in_true. apply in_map_iff in H.
    destruct H as [s [<- Hs]]. now exists s.
Qed.

(** Every way [checks] can fail is a [ValueError], except for a [len] that
    is not defined. *)
Lemma length_check_inv (d : dict) (name digits : string) (m : Z) (e : exn) :
  length_check d name digits m = inl e ->
  e = InsufficientNoiseFactorsError name digits \/
  len (get d "noise_factors" VNone) = inl e.
Proof.
  unfold length_check. destruct (len _) as [e'|n].
  - intros H. inversion H. now right.
  - destruct (n <? m); intros H; inversion H. now left.
Qed.

Lemma len_inl (v : value) (e : exn) :
  len v = inl e -> exists msg, e = TypeError msg.
Proof.
  destruct v; simpl; intros H; inversion H; eexists; reflexivity.
Qed.

Lemma checks_inl (d : dict) (e : exn) : checks d = inl e -> failure d e.
Proof.
  unfold checks. destruct (first_unsupported d) as [opt|] eqn:F.
  { intros H; inversion H. now constructor. }
  destruct (py_in (effective_noise_amplifier d) _) eqn:A; cbn [negb].
  2:{ intros H; inversion H. now constructor. }
  destruct (py_in (get d "extrapolator" VNone) _) eqn:E; cbn [negb].
  2:{ intros H; inversion H. now constructor. }
  assert (L : forall name digits m,
             length_check d name digits m = inl e -> failure d e).
  { intros name digits m H. apply length_check_inv in H. destruct H as [->|H].
    - now constructor.
    - destruct (len_inl _ _ H) as [msg ->]. now constructor. }
  destruct (eq_str _ "QuarticExtrapolator"); [apply L|].
  destruct (eq_str _ "CubicExtrapolator"); [apply L|].
  discriminate.
Qed.

Lemma length_check_sized (d : dict) (name digits : string) (m n : Z) :
  len (get d "noise_factors" VNone) = inr n ->
  (n < m -> length_check d name digits m
            = inl (InsufficientNoiseFactorsError name digits)) /\
  (m <= n -> length_check d name digits m = inr tt).
Proof.
  intros L. unfold length_check. rewrite L.
  destruct (Z.ltb_spec n m); split; intros; try reflexivity; lia.
Qed.

(** [checks] reads the keys, the two enumerated fields and the length of
    [noise_factors], nothing else. *)
Lemma checks_ext (d d' : dict) :
  keys d = keys d' ->
  get d "noise_amplifier" VNone = get d' "noise_amplifier" VNone ->
  get d "extrapolator" VNone = get d' "extrapolator" VNone ->
  len (get d "noise_factors" VNone) = len (get d' "noise_factors" VNone) ->
  checks d = checks d'.
Proof.
  intros K A E L.
  unfold checks, first_unsupported, effective_noise_amplifier, length_check.
  now rewrite K, A, E, L.
Qed.

(** *** After the key check and the noise amplifier check *)

Section EarlierChecksPassed.

Variable d : dict.
Hypothesis keys_ok : keys_supported d = true.
Hypothesis amplifier_ok :
  py_in (effective_noise_amplifier d) (get_args NoiseAmplifierType) = true.

(** The extrapolator check and the minimum-length checks decide. *)
Lemma checks_tail :
  checks d =
    if negb (py_in (get d "extrapolator" VNone) (get_args ExtrapolatorType))
    then inl (UnsupportedValueError "extrapolator"
                (get d "extrapolator" VNone) ExtrapolatorType)
    else if eq_str (get d "extrapolator" VNone) "QuarticExtrapolator"
    then length_check d "QuarticExtrapolator" "5" 5
    else if eq_str (get d "extrapolator" VNone) "CubicExtrapolator"
    then length_check d "CubicExtrapolator" "4" 4
    else inr tt.
Proof.
  unfold checks.
  rewrite (proj2 (first_unsupported_None d) keys_ok), amplifier_ok.
  reflexivity.
Qed.

Lemma checks_quartic :
  get d "extrapolator" VNone = VStr "QuarticExtrapolator" ->
  checks d = length_check d "QuarticExtrapolator" "5" 5.
Proof. intros E. rewrite checks_tail, E. reflexivity. Qed.

Lemma checks_cubic :
  get d "extrapolator" VNone = VStr "CubicExtrapolator" ->
  checks d = length_check d "CubicExtrapolator" "4" 4.
Proof. intros E. rewrite checks_tail, E. reflexivity. Qed.

End EarlierChecksPassed.

(** The six scenarios of the specification, as the method runs them. *)
Example scenario_1 :
  run [] = (inl (UnsupportedValueError "extrapolator" VNone ExtrapolatorType),
            {| resilience_options := []; issued := [] |}).
Proof. reflexivity. Qed.

Example scenario_2 :
  run d_quartic3 =
    (inl (InsufficientNoiseFactorsError "QuarticExtrapolator" "5"),
     {| resilience_options := d_quartic3; issued := [] |}).
Proof. reflexivity. Qed.

Example scenario_3 :
  run d_cubic4 = (inr tt, {| resilience_options := d_cubic4; issued := [] |}).
Proof. reflexivity. Qed.

Example scenario_4 :
  run d_foo = (inl (UnsupportedOptionError (VStr "foo")),
               {| resilience_options := d_foo; issued := [] |}).
Proof. reflexivity. Qed.

Example scenario_5 :
  run d_bogus_amplifier =
    (inl (UnsupportedValueError "noise_amplifier" (VStr "Bogus")
            NoiseAmplifierType),
     {| resilience_options := d_bogus_amplifier;
        issued := [deprecation_notice] |}).
Proof. reflexivity. Qed.

Example scenario_6 :
  run d_bogus_extrapolator =
    (inl (UnsupportedValueError "extrapolator" (VStr "Bogus") ExtrapolatorType),
     {| resilience_options := d_bogus_extrapolator; issued := [] |}).
Proof. reflexivity. Qed.

(** The texts of the errors of scenarios 1, 2, 4, 5 and 6. *)
Example text_scenario_1 :
  exn_text (UnsupportedValueError "extrapolator" VNone ExtrapolatorType)
  = Some ("Unsupported value None for extrapolator. Supported values are " ++
          "('LinearExtrapolator', 'QuadraticExtrapolator', " ++
          "'CubicExtrapolator', 'QuarticExtrapolator')").
Proof. reflexivity. Qed.

Example text_scenario_2 :
  exn_text (InsufficientNoiseFactorsError "QuarticExtrapolator" "5")
  = Some "QuarticExtrapolator requires at least 5 noise_factors.".
Proof. reflexivity. Qed.

Example text_scenario_4 :
  exn_text (UnsupportedOptionError (VStr "foo"))
  = Some "Unsupported value 'foo' for resilience.".
Proof. reflexivity. Qed.

Example text_scenario_5 :
  exn_text (UnsupportedValueError "noise_amplifier" (VStr "Bogus")
              NoiseAmplifierType)
  = Some ("Unsupported value Bogus for noise_amplifier. Supported values are " ++
          "('TwoQubitAmplifier', 'GlobalFoldingAmplifier', " ++
          "'LocalFoldingAmplifier', 'CxAmplifier')").
Proof. reflexivity. Qed.

Example text_scenario_6 :
  exn_text (UnsupportedValueError "extrapolator" (VStr "Bogus") ExtrapolatorType)
  = Some ("Unsupported value Bogus for extrapolator. Supported values are " ++
          "('LinearExtrapolator', 'QuadraticExtrapolator', " ++
          "'CubicExtrapolator', 'QuarticExtrapolator')").
Proof. reflexivity. Qed.

(** The text of the key error names a [str] key between quotes. *)
Lemma UnsupportedOptionError_text (s : string) :
  exn_text (UnsupportedOptionError (VStr s))
  = Some ("Unsupported value '" ++ s ++ "' for resilience.").
Proof. reflexivity. Qed.

(** ** Claims *)

(** C1, as stated, fails on [{"foo": 1}]: the key [extrapolator] is absent,
    and the method fails at the key check, with the error that names
    ["foo"], not with the error of the extrapolator check. *)
Lemma C1_counterexample :
  ~ (has_key d_foo "extrapolator" = false \/
     py_in (get d_foo "extrapolator" VNone) (get_args ExtrapolatorType) = false ->
     exists v,
       outcome d_foo = inl (UnsupportedValueError "extrapolator" v ExtrapolatorType)).
Proof.
  intros H. destruct H as [v Hv]; [left; reflexivity|].
  vm_compute in Hv. discriminate Hv.
Qed.

(** C1 (amended): when [extrapolator] is absent or bound to a value outside
    the four legal ones, the method fails with a [ValueError]; when moreover
    every key is recognised and the noise amplifier check passes, that error
    is the one of the extrapolator check, which states the value read ([None]
    when the key is absent: the declared default is not used) and lists the
    four legal values. *)
Theorem C1_extrapolator_value (d : dict) :
  has_key d "extrapolator" = false \/
  py_in (get d "extrapolator" VNone) (get_args ExtrapolatorType) = false ->
  (exists msg, outcome d = inl (ValueError msg)) /\
  (keys_supported d = true ->
   py_in (effective_noise_amplifier d) (get_args NoiseAmplifierType) = true ->
   outcome d = inl (UnsupportedValueError "extrapolator"
                      (get d "extrapolator" VNone) ExtrapolatorType)) /\
  (has_key d "extrapolator" = false -> get d "extrapolator" VNone = VNone).
Proof.
  intros H.
  assert (E : py_in (get d "extrapolator" VNone) (get_args ExtrapolatorType)
              = false).
  { destruct H as [H|H]; [|exact H]. now rewrite (get_absent _ _ _ H). }
  rewrite outcome_checks. split; [|split].
  - unfold checks. destruct (first_unsupported d); [eexists; reflexivity|].
    destruct (py_in (effective_noise_amplifier d) _); cbn [negb];
      [|eexists; reflexivity].
    rewrite E. eexists; reflexivity.
  - intros K A. rewrite (checks_tail d K A), E. reflexivity.
  - apply get_absent.
Qed.

Lemma C1_extrapolator_value_witness :
  outcome [] = inl (UnsupportedValueError "extrapolator" VNone ExtrapolatorType)
  /\ outcome d_bogus_extrapolator
     = inl (UnsupportedValueError "extrapolator" (VStr "Bogus") ExtrapolatorType).
Proof.
  split.
  - apply (C1_extrapolator_value []); [left|..]; reflexivity.
  - apply (C1_extrapolator_value d_bogus_extrapolator); [right|..]; reflexivity.
Defined.

(** C2, as stated, fails: on the empty mapping the method raises. *)
Lemma C2_counterexample : ~ (outcome [] = inr tt /\ notices [] = []).
Proof. intros [H _]. vm_compute in H. discriminate H. Qed.

(** C2 (amended): on the empty mapping the method issues no deprecation
    notice and fails at the extrapolator check with the value [None], since
    it applies no default for [extrapolator].  It succeeds, with no notice,
    once ["LinearExtrapolator"] is supplied, alone or together with the other
    declared defaults; the declared default of [noise_factors] is (1, 3, 5). *)
Theorem C2_empty_mapping :
  run [] = (inl (UnsupportedValueError "extrapolator" VNone ExtrapolatorType),
            {| resilience_options := []; issued := [] |}) /\
  run d_linear = (inr tt, {| resilience_options := d_linear; issued := [] |}) /\
  run (asdict ResilienceOptions_default)
    = (inr tt, {| resilience_options := asdict ResilienceOptions_default;
                  issued := [] |}) /\
  noise_factors ResilienceOptions_default = VTuple [VInt 1; VInt 3; VInt 5] /\
  extrapolator ResilienceOptions_default = VStr "LinearExtrapolator".
Proof. repeat split. Qed.

(** C3, as stated, fails on two mappings.  On the mapping that binds
    [noise_amplifier] to the empty string and [extrapolator] to
    ["LinearExtrapolator"], the value supplied is not [None] and is outside
    the legal set, yet the value checked is the default and the method
    succeeds.  On [{"foo": 1, "noise_amplifier": "Bogus"}] the resolved value
    is outside the legal set, yet the method fails at the key check. *)
Lemma C3_counterexample :
  (is_None (get d_empty_amplifier "noise_amplifier" VNone) = false /\
   py_in (get d_empty_amplifier "noise_amplifier" VNone)
     (get_args NoiseAmplifierType) = false /\
   effective_noise_amplifier d_empty_amplifier
     <> resolved_as_specified d_empty_amplifier /\
   outcome d_empty_amplifier = inr tt) /\
  ~ (outcome d_foo_bogus
       = inl (UnsupportedValueError "noise_amplifier"
                (resolved_as_specified d_foo_bogus) NoiseAmplifierType)
     <-> py_in (resolved_as_specified d_foo_bogus)
           (get_args NoiseAmplifierType) = false).
Proof.
  split.
  - repeat split. vm_compute. discriminate.
  - intros [_ H]. specialize (H eq_refl). vm_compute in H. discriminate H.
Qed.

(** C3 (amended): when [noise_amplifier] is absent, [None] or truthy, the
    value the method checks is the supplied one if present and not [None],
    and ["TwoQubitAmplifier"] otherwise; if moreover every key is recognised,
    the method fails with the error of the noise amplifier check, stating
    that value and listing the four legal ones, if and only if the value is
    outside the legal set.  Every truthy supplied value outside the legal set
    makes the method fail with a [ValueError], and an absent or [None]
    noise amplifier never gives the error of this check. *)
Theorem C3_noise_amplifier_value (d : dict) :
  let supplied := get d "noise_amplifier" VNone in
  (supplied = VNone \/ truthy supplied = true ->
   effective_noise_amplifier d = resolved_as_specified d /\
   (keys_supported d = true ->
    (outcome d = inl (UnsupportedValueError "noise_amplifier"
                        (resolved_as_specified d) NoiseAmplifierType)
     <-> py_in (resolved_as_specified d) (get_args NoiseAmplifierType)
         = false))) /\
  (truthy supplied = true ->
   py_in supplied (get_args NoiseAmplifierType) = false ->
   exists msg, outcome d = inl (ValueError msg)) /\
  (has_key d "noise_amplifier" = false \/ supplied = VNone ->
   forall v, outcome d <> inl (UnsupportedValueError "noise_amplifier" v
                                 NoiseAmplifierType)).
Proof.
  intros supplied.
  assert (I : forall v,
             outcome d = inl (UnsupportedValueError "noise_amplifier" v
                                NoiseAmplifierType) ->
             v = effective_noise_amplifier d /\
             py_in v (get_args NoiseAmplifierType) = false).
  { intros v H. rewrite outcome_checks in H. apply checks_inl in H.
    inversion H as [o F E| F A E | F A E | n g F E | m F L E];
      try (exn_inv E). now subst v. }
  split; [|split].
  - intros S.
    assert (R : effective_noise_amplifier d = resolved_as_specified d).
    { unfold effective_noise_amplifier, resolved_as_specified, py_or.
      fold supplied. destruct S as [->|T]; [reflexivity|].
      rewrite T. clearbody supplied.
      destruct supplied; try reflexivity. discriminate T. }
    split; [exact R|]. intros K. rewrite <- R. split.
    + intros H. apply I in H. tauto.
    + intros H. rewrite outcome_checks. unfold checks.
      apply first_unsupported_None in K. now rewrite K, H.
  - intros T O. rewrite outcome_checks. unfold checks.
    destruct (first_unsupported d); [eexists; reflexivity|].
    unfold effective_noise_amplifier, py_or. fold supplied.
    rewrite T, O. eexists; reflexivity.
  - intros H v Hv. apply I in Hv. destruct Hv as [-> A].
    assert (N : supplied = VNone).
    { destruct H as [H|H]; [|exact H]. apply (get_absent _ _ _ H). }
    unfold effective_noise_amplifier in A. fold supplied in A.
    rewrite N in A. vm_compute in A. discriminate A.
Qed.

Lemma C3_noise_amplifier_value_witness :
  (outcome d_bogus_amplifier
     = inl (UnsupportedValueError "noise_amplifier"
              (resolved_as_specified d_bogus_amplifier) NoiseAmplifierType)
   <-> py_in (resolved_as_specified d_bogus_amplifier)
         (get_args NoiseAmplifierType) = false) /\
  (exists msg, outcome d_foo_bogus = inl (ValueError msg)) /\
  (forall v, outcome d_linear
             <> inl (UnsupportedValueError "noise_amplifier" v
                       NoiseAmplifierType)).
Proof.
  split; [|split].
  - apply (C3_noise_amplifier_value d_bogus_amplifier);
      [right|]; reflexivity.
  - apply (C3_noise_amplifier_value d_foo_bogus); reflexivity.
  - apply (C3_noise_amplifier_value d_linear). left. reflexivity.
Defined.

(** C4: a mapping with a key outside the recognised set makes the method
    fail with the error of the key check, naming such a key of the mapping
    (the first one in iteration order); a mapping whose keys are all
    recognised never fails with that error. *)
Theorem C4_unsupported_option (d : dict) :
  ((exists opt, In opt (keys d) /\
                ~ In opt (map VStr (get_args ResilienceSupportedOptions))) ->
   exists opt, In opt (keys d) /\
               ~ In opt (map VStr (get_args ResilienceSupportedOptions)) /\
               first_unsupported d = Some opt /\
               outcome d = inl (UnsupportedOptionError opt)) /\
  ((forall opt, In opt (keys d) ->
                In opt (map VStr (get_args ResilienceSupportedOptions))) ->
   forall opt, outcome d <> inl (UnsupportedOptionError opt)).
Proof.
  rewrite outcome_checks. split.
  - intros [opt [Hin Hout]].
    destruct (first_unsupported d) as [opt'|] eqn:F.
    + exists opt'. destruct (first_unsupported_Some _ _ F) as [Hin' Hout'].
      repeat split; auto. unfold checks. now rewrite F.
    + apply first_unsupported_None in F.
      exfalso. apply Hout. exact (proj1 (keys_supported_true d) F opt Hin).
  - intros K opt H. apply keys_supported_true, first_unsupported_None in K.
    apply checks_inl in H. inversion H as [o F E| F A E | F A E | n g F E | m F L E];
      try congruence; exn_inv E.
Qed.

Lemma C4_unsupported_option_witness :
  (exists opt, In opt (keys d_foo) /\
               ~ In opt (map VStr (get_args ResilienceSupportedOptions)) /\
               first_unsupported d_foo = Some opt /\
               outcome d_foo = inl (UnsupportedOptionError opt)) /\
  (forall opt, outcome d_cubic4 <> inl (UnsupportedOptionError opt)).
Proof.
  split.
  - apply (proj1 (C4_unsupported_option d_foo)).
    exists (VStr "foo"). split; [now left|].
    simpl. intros [H|[H|[H|[]]]]; discriminate H.
  - apply (proj2 (C4_unsupported_option d_cubic4)).
    simpl. intros opt [<-|[<-|[]]]; auto.
Defined.

(** C5, as stated, fails on two mappings that bind [extrapolator] to
    ["QuarticExtrapolator"] and [noise_factors] to [[1, 2, 3]]: with the
    further key ["foo"] the method fails at the key check, and with
    [noise_amplifier] bound to ["Bogus"] it fails at the noise amplifier
    check. *)
Lemma C5_counterexample :
  ~ (get d_quartic3_foo "extrapolator" VNone = VStr "QuarticExtrapolator" ->
     len (get d_quartic3_foo "noise_factors" VNone) = inr 3 ->
     outcome d_quartic3_foo
       = inl (InsufficientNoiseFactorsError "QuarticExtrapolator" "5")) /\
  ~ (get d_quartic3_bogus "extrapolator" VNone = VStr "QuarticExtrapolator" ->
     len (get d_quartic3_bogus "noise_factors" VNone) = inr 3 ->
     outcome d_quartic3_bogus
       = inl (InsufficientNoiseFactorsError "QuarticExtrapolator" "5")).
Proof.
  split; intros H; specialize (H eq_refl eq_refl);
    vm_compute in H; discriminate H.
Qed.

(** C5 (amended): for a mapping whose keys are all recognised and whose noise
    amplifier check passes, with [extrapolator] equal to
    ["QuarticExtrapolator"] and a supplied [noise_factors] of length [n], the
    method fails with the quartic error when [n < 5] and succeeds when
    [5 <= n]. *)
Theorem C5_quartic_minimum (d : dict) (n : Z) :
  keys_supported d = true ->
  py_in (effective_noise_amplifier d) (get_args NoiseAmplifierType) = true ->
  get d "extrapolator" VNone = VStr "QuarticExtrapolator" ->
  len (get d "noise_factors" VNone) = inr n ->
  (n < 5 -> outcome d
            = inl (InsufficientNoiseFactorsError "QuarticExtrapolator" "5")) /\
  (5 <= n -> outcome d = inr tt).
Proof.
  intros K A E L. rewrite outcome_checks, (checks_quartic d K A E).
  now apply length_check_sized.
Qed.

Lemma C5_quartic_minimum_witness :
  outcome d_quartic3
    = inl (InsufficientNoiseFactorsError "QuarticExtrapolator" "5").
Proof.
  apply (C5_quartic_minimum d_quartic3 3); (reflexivity || lia).
Defined.

(** C6, as stated, fails on two mappings that bind [extrapolator] to
    ["CubicExtrapolator"] and [noise_factors] to [[1, 2, 3]]: with the
    further key ["foo"] the method fails at the key check, and with
    [noise_amplifier] bound to ["Bogus"] it fails at the noise amplifier
    check. *)
Lemma C6_counterexample :
  ~ (get d_cubic3_foo "extrapolator" VNone = VStr "CubicExtrapolator" ->
     len (get d_cubic3_foo "noise_factors" VNone) = inr 3 ->
     outcome d_cubic3_foo
       = inl (InsufficientNoiseFactorsError "CubicExtrapolator" "4")) /\
  ~ (get d_cubic3_bogus "extrapolator" VNone = VStr "CubicExtrapolator" ->
     len (get d_cubic3_bogus "noise_factors" VNone) = inr 3 ->
     outcome d_cubic3_bogus
       = inl (InsufficientNoiseFactorsError "CubicExtrapolator" "4")).
Proof.
  split; intros H; specialize (H eq_refl eq_refl);
    vm_compute in H; discriminate H.
Qed.

(** C6 (amended): for a mapping whose keys are all recognised and whose noise
    amplifier check passes, with [extrapolator] equal to
    ["CubicExtrapolator"] and a supplied [noise_factors] of length [n], the
    method fails with the cubic error when [n < 4] and succeeds when
    [4 <= n]; the mapping
    [{"extrapolator": "CubicExtrapolator", "noise_factors": [1, 2, 3, 4]}]
    is accepted and no notice is issued. *)
Theorem C6_cubic_minimum (d : dict) (n : Z) :
  keys_supported d = true ->
  py_in (effective_noise_amplifier d) (get_args NoiseAmplifierType) = true ->
  get d "extrapolator" VNone = VStr "CubicExtrapolator" ->
  len (get d "noise_factors" VNone) = inr n ->
  (n < 4 -> outcome d
            = inl (InsufficientNoiseFactorsError "CubicExtrapolator" "4")) /\
  (4 <= n -> outcome d = inr tt) /\
  run d_cubic4 = (inr tt, {| resilience_options := d_cubic4; issued := [] |}).
Proof.
  intros K A E L. rewrite outcome_checks, (checks_cubic d K A E).
  destruct (length_check_sized d "CubicExtrapolator" "4" 4 n L) as [Lt Ge].
  repeat split; assumption.
Qed.

Lemma C6_cubic_minimum_witness :
  outcome d_cubic3
    = inl (InsufficientNoiseFactorsError "CubicExtrapolator" "4") /\
  outcome d_cubic4 = inr tt.
Proof.
  split.
  - apply (C6_cubic_minimum d_cubic3 3); (reflexivity || lia).
  - apply (C6_cubic_minimum d_cubic4 4); (reflexivity || lia).
Defined.

(** C7: when [noise_amplifier] is present and not [None] the method issues
    exactly one deprecation notice, whatever the value and however the
    checks end (the notice is there when the key check or the noise
    amplifier check raises, so it is issued before them); when the key is
    absent or bound to [None] it issues none.  Issuing returns normally, and
    the method ends as the four checks alone decide. *)
Theorem C7_deprecation_notice (d : dict) (log : list Deprecation.notice) :
  let r := validate_resilience_options
             {| resilience_options := d; issued := log |} in
  (has_key d "noise_amplifier" = true /\ get d "noise_amplifier" VNone <> VNone ->
   issued (snd r) = (log ++ [deprecation_notice])%list) /\
  (has_key d "noise_amplifier" = false \/ get d "noise_amplifier" VNone = VNone ->
   issued (snd r) = log) /\
  fst r = checks d /\
  (forall m v p y s, fst (issue_deprecation_msg m v p y s) = inr tt) /\
  run d_foo_bogus
    = (inl (UnsupportedOptionError (VStr "foo")),
       {| resilience_options := d_foo_bogus; issued := [deprecation_notice] |}) /\
  run d_bogus_amplifier
    = (inl (UnsupportedValueError "noise_amplifier" (VStr "Bogus")
              NoiseAmplifierType),
       {| resilience_options := d_bogus_amplifier;
          issued := [deprecation_notice] |}).
Proof.
  intros r. unfold r. rewrite validate_run. cbn [fst snd issued].
  unfold emitted. repeat split.
  - intros [_ H]. destruct (get d "noise_amplifier" VNone); try reflexivity.
    now contradict H.
  - intros [H|H]; [rewrite (get_absent _ _ _ H)|rewrite H];
      apply app_nil_r.
Qed.

Lemma C7_deprecation_notice_witness :
  issued (snd (validate_resilience_options
                 {| resilience_options := d_legal_amplifier; issued := [] |}))
    = [deprecation_notice] /\
  issued (snd (validate_resilience_options
                 {| resilience_options := d_linear; issued := [] |})) = [].
Proof.
  split.
  - apply (C7_deprecation_notice d_legal_amplifier []).
    split; [reflexivity | discriminate].
  - apply (C7_deprecation_notice d_linear []). left; reflexivity.
Defined.

(** C8, as stated, fails on two mappings that bind [extrapolator] to
    ["QuarticExtrapolator"] and have no [noise_factors]: with the further key
    ["foo"] the method fails with the error of the key check, and with
    [noise_amplifier] bound to ["Bogus"] with the error of the noise
    amplifier check, both of them declared errors. *)
Lemma C8_counterexample :
  (get d_quartic_foo "extrapolator" VNone = VStr "QuarticExtrapolator" /\
   has_key d_quartic_foo "noise_factors" = false /\
   exists e, outcome d_quartic_foo = inl e /\ declared_error e) /\
  (get d_quartic_bogus "extrapolator" VNone = VStr "QuarticExtrapolator" /\
   has_key d_quartic_bogus "noise_factors" = false /\
   exists e, outcome d_quartic_bogus = inl e /\ declared_error e).
Proof.
  split; (split; [reflexivity|split; [reflexivity|]]).
  - exists (UnsupportedOptionError (VStr "foo")). split; [reflexivity|].
    left. now exists (VStr "foo").
  - exists (UnsupportedValueError "noise_amplifier" (VStr "Bogus")
              NoiseAmplifierType).
    split; [reflexivity|]. right; left.
    now exists "noise_amplifier", (VStr "Bogus"), NoiseAmplifierType.
Qed.

(** C8 (amended): for a mapping whose keys are all recognised and whose noise
    amplifier check passes, with [extrapolator] equal to
    ["QuarticExtrapolator"] or ["CubicExtrapolator"] and no key
    [noise_factors], the method ends with the [TypeError] of [len(None)],
    which is none of the three declared errors. *)
Theorem C8_absent_noise_factors (d : dict) :
  keys_supported d = true ->
  py_in (effective_noise_amplifier d) (get_args NoiseAmplifierType) = true ->
  get d "extrapolator" VNone = VStr "QuarticExtrapolator" \/
  get d "extrapolator" VNone = VStr "CubicExtrapolator" ->
  has_key d "noise_factors" = false ->
  outcome d = inl (TypeError [Lit "object of type 'NoneType' has no len()"]) /\
  ~ declared_error (TypeError [Lit "object of type 'NoneType' has no len()"]).
Proof.
  intros K A E N. split.
  - rewrite outcome_checks.
    destruct E as [E|E];
      [rewrite (checks_quartic d K A E) | rewrite (checks_cubic d K A E)];
      unfold length_check; rewrite (get_absent _ _ _ N); reflexivity.
  - intros [[opt H]|[[f [v [l H]]]|[x [m H]]]]; discriminate H.
Qed.

Lemma C8_absent_noise_factors_witness :
  outcome d_quartic
    = inl (TypeError [Lit "object of type 'NoneType' has no len()"]) /\
  ~ declared_error (TypeError [Lit "object of type 'NoneType' has no len()"]).
Proof.
  apply (C8_absent_noise_factors d_quartic); try reflexivity. left; reflexivity.
Defined.

(** C9: a mapping whose keys are all recognised, whose noise amplifier check
    passes and whose [extrapolator] is ["LinearExtrapolator"] or
    ["QuadraticExtrapolator"] is accepted, whatever [noise_factors] is bound
    to, if anything.  In general the method reads of [noise_factors] only
    what [len] gives: two mappings with the same keys, the same
    [noise_amplifier] and [extrapolator], and [noise_factors] of equal [len],
    end alike and issue the same notices. *)
Theorem C9_noise_factors_unchecked (d d' : dict) :
  (keys_supported d = true ->
   py_in (effective_noise_amplifier d) (get_args NoiseAmplifierType) = true ->
   get d "extrapolator" VNone = VStr "LinearExtrapolator" \/
   get d "extrapolator" VNone = VStr "QuadraticExtrapolator" ->
   outcome d = inr tt) /\
  (keys d = keys d' ->
   get d "noise_amplifier" VNone = get d' "noise_amplifier" VNone ->
   get d "extrapolator" VNone = get d' "extrapolator" VNone ->
   len (get d "noise_factors" VNone) = len (get d' "noise_factors" VNone) ->
   outcome d = outcome d' /\ notices d = notices d').
Proof.
  split.
  - intros K A E. rewrite outcome_checks, (checks_tail d K A).
    destruct E as [E|E]; rewrite E; reflexivity.
  - intros K A E L. rewrite !outcome_checks, !notices_emitted. split.
    + now apply checks_ext.
    + unfold emitted. now rewrite A.
Qed.

Lemma C9_noise_factors_unchecked_witness :
  outcome d_linear_int = inr tt /\
  outcome d_cubic4 = outcome d_cubic_abcd /\ notices d_cubic4 = notices d_cubic_abcd.
Proof.
  split.
  - apply (proj1 (C9_noise_factors_unchecked d_linear_int d_linear_int));
      try reflexivity. left; reflexivity.
  - apply (proj2 (C9_noise_factors_unchecked d_cubic4 d_cubic_abcd));
      reflexivity.
Defined.

(** C10: the method leaves the mapping as it was; it adds to the warnings
    issued at most the one deprecation notice and changes nothing else; it
    ends either by returning [None] or by raising; and on equal mappings it
    ends alike and issues the same notices, whatever was issued before. *)
Theorem C10_frame (d : dict) (log log' : list Deprecation.notice) :
  let r := validate_resilience_options
             {| resilience_options := d; issued := log |} in
  let r' := validate_resilience_options
              {| resilience_options := d; issued := log' |} in
  resilience_options (snd r) = d /\
  (issued (snd r) = log \/ issued (snd r) = (log ++ [deprecation_notice])%list) /\
  (fst r = inr tt \/ exists e, fst r = inl e) /\
  fst r' = fst r /\
  issued (snd r) = (log ++ notices d)%list /\
  issued (snd r') = (log' ++ notices d)%list.
Proof.
  intros r r'. unfold r, r'. rewrite !validate_run, notices_emitted.
  cbn [fst snd issued resilience_options]. repeat split.
  - unfold emitted. destruct (is_None _); [left; apply app_nil_r | now right].
  - destruct (checks d) as [e|[]]; [right; now exists e | now left].
Qed.

(** ** Further properties of [validate_resilience_options] *)

Lemma length_check_accepts (d : dict) (name digits : string) (m : Z) :
  length_check d name digits m = inr tt <->
  exists n, len (get d "noise_factors" VNone) = inr n /\ m <= n.
Proof.
  unfold length_check. destruct (len _) as [e|n].
  - split; [discriminate | intros [n [H _]]; discriminate H].
  - destruct (Z.ltb_spec n m); split.
    + discriminate.
    + intros [n' [H' Hn]]. inversion H'. lia.
    + intros _. exists n. split; [reflexivity | lia].
    + reflexivity.
Qed.

Lemma length_check_few (d : dict) (name digits : string) (m : Z) :
  length_check d name digits m = inl (InsufficientNoiseFactorsError name digits)
  <-> exists n, len (get d "noise_factors" VNone) = inr n /\ n < m.
Proof.
  unfold length_check. destruct (len _) as [e|n] eqn:L.
  - split; [|intros [n [H _]]; discriminate H].
    intros H. inversion H. subst e. apply len_inl in L.
    destruct L as [msg L]. discriminate L.
  - destruct (Z.ltb_spec n m); split.
    + intros _. exists n. split; [reflexivity | lia].
    + reflexivity.
    + discriminate.
    + intros [n' [H' Hn]]. inversion H'. lia.
Qed.

Lemma length_check_type_error (d : dict) (name digits : string) (m : Z) msg :
  length_check d name digits m = inl (TypeError msg)
  <-> len (get d "noise_factors" VNone) = inl (TypeError msg).
Proof.
  unfold length_check. destruct (len _) as [e|n].
  - split; intros H; inversion H; reflexivity.
  - destruct (n <? m); split; discriminate.
Qed.

(** When [checks] lets a mapping through. *)
Lemma checks_accepts (d : dict) :
  checks d = inr tt <->
  keys_supported d = true /\
  py_in (effective_noise_amplifier d) (get_args NoiseAmplifierType) = true /\
  py_in (get d "extrapolator" VNone) (get_args ExtrapolatorType) = true /\
  (get d "extrapolator" VNone = VStr "QuarticExtrapolator" ->
   exists n, len (get d "noise_factors" VNone) = inr n /\ 5 <= n) /\
  (get d "extrapolator" VNone = VStr "CubicExtrapolator" ->
   exists n, len (get d "noise_factors" VNone) = inr n /\ 4 <= n).
Proof.
  split.
  - intros H.
    destruct (keys_supported d) eqn:K.
    2:{ unfold checks in H. destruct (first_unsupported d) eqn:F;
          [discriminate H|]. apply first_unsupported_None in F. congruence. }
    destruct (py_in (effective_noise_amplifier d) _) eqn:A.
    2:{ unfold checks in H.
        rewrite (proj2 (first_unsupported_None d) K), A in H. discriminate H. }
    rewrite (checks_tail d K A) in H.
    destruct (py_in (get d "extrapolator" VNone) _) eqn:E;
      cbn [negb] in H; [|discriminate H].
    repeat split.
    + intros Q. rewrite Q in H. cbn in H. now apply length_check_accepts in H.
    + intros C. rewrite C in H. cbn in H. now apply length_check_accepts in H.
  - intros [K [A [E [Q C]]]]. rewrite (checks_tail d K A), E. cbn [negb].
    destruct (eq_str _ "QuarticExtrapolator") eqn:EQ.
    { apply eq_str_true in EQ. now apply length_check_accepts, Q. }
    destruct (eq_str _ "CubicExtrapolator") eqn:EC; [|reflexivity].
    apply eq_str_true in EC. now apply length_check_accepts, C.
Qed.

(** X1: the method accepts a mapping exactly when every key is recognised,
    the noise amplifier checked and the extrapolator are legal, and
    [noise_factors] has a length of at least 5 under ["QuarticExtrapolator"]
    and of at least 4 under ["CubicExtrapolator"]. *)
Theorem X1_accepts_iff (d : dict) :
  outcome d = inr tt <->
  keys_supported d = true /\
  py_in (effective_noise_amplifier d) (get_args NoiseAmplifierType) = true /\
  py_in (get d "extrapolator" VNone) (get_args ExtrapolatorType) = true /\
  (get d "extrapolator" VNone = VStr "QuarticExtrapolator" ->
   exists n, len (get d "noise_factors" VNone) = inr n /\ 5 <= n) /\
  (get d "extrapolator" VNone = VStr "CubicExtrapolator" ->
   exists n, len (get d "noise_factors" VNone) = inr n /\ 4 <= n).
Proof. rewrite outcome_checks. apply checks_accepts. Qed.

Lemma X1_accepts_iff_witness : outcome d_quartic5 = inr tt.
Proof.
  apply (proj2 (X1_accepts_iff d_quartic5)).
  repeat split; try reflexivity.
  - intros _. exists 5. split; [reflexivity | lia].
  - discriminate.
Defined.



(** A failure of [checks] after the key check and the noise amplifier check
    have passed. *)
Lemma checks_inl_passed (d : dict) (e : exn) :
  checks d = inl e ->
  (forall opt, e <> UnsupportedOptionError opt) ->
  (forall v, e <> UnsupportedValueError "noise_amplifier" v NoiseAmplifierType) ->
  keys_supported d = true /\
  py_in (effective_noise_amplifier d) (get_args NoiseAmplifierType) = true.
Proof.
  unfold checks. intros H NK NA.
  destruct (first_unsupported d) as [opt|] eqn:F.
  { inversion H. now destruct (NK opt). }
  apply first_unsupported_None in F. split; [exact F|].
  destruct (py_in (effective_noise_amplifier d) _); [reflexivity|].
  cbn [negb] in H. inversion H. now destruct (NA (effective_noise_amplifier d)).
Qed.

(** X3: the method ends with a [TypeError] exactly when every key is
    recognised, the noise amplifier check passes, [extrapolator] is
    ["QuarticExtrapolator"] or ["CubicExtrapolator"], and [len] is not
    defined on what [noise_factors] is bound to ([None] when absent, a
    [bool], an [int] or a [float]); the error is the one of [len]. *)
Theorem X3_type_error_iff (d : dict) (msg : message) :
  outcome d = inl (TypeError msg) <->
  keys_supported d = true /\
  py_in (effective_noise_amplifier d) (get_args NoiseAmplifierType) = true /\
  (get d "extrapolator" VNone = VStr "QuarticExtrapolator" \/
   get d "extrapolator" VNone = VStr "CubicExtrapolator") /\
  len (get d "noise_factors" VNone) = inl (TypeError msg).
Proof.
  rewrite outcome_checks. split.
  - intros H.
    destruct (checks_inl_passed d _ H) as [K A]; try (intros; discriminate).
    rewrite (checks_tail d K A) in H.
    destruct (py_in (get d "extrapolator" VNone) _); cbn [negb] in H;
      [|discriminate H].
    destruct (eq_str _ "QuarticExtrapolator") eqn:EQ.
    { apply eq_str_true in EQ. apply length_check_type_error in H. tauto. }
    destruct (eq_str _ "CubicExtrapolator") eqn:EC; [|discriminate H].
    apply eq_str_true in EC. apply length_check_type_error in H. tauto.
  - intros [K [A [E L]]].
    destruct E as [E|E];
      [rewrite (checks_quartic d K A E) | rewrite (checks_cubic d K A E)];
      now apply length_check_type_error.
Qed.

Lemma X3_type_error_iff_witness :
  outcome d_quartic_int
  = inl (TypeError [Lit "object of type 'int' has no len()"]).
Proof.
  apply (proj2 (X3_type_error_iff d_quartic_int _)).
  repeat split. now left.
Defined.

(** X4: the method fails with the error of the extrapolator check, for a
    value [v], exactly when every key is recognised, the noise amplifier
    check passes, and [v] is what [extrapolator] is bound to ([None] when
    absent) and is none of the four legal strings. *)
Theorem X4_extrapolator_error_iff (d : dict) (v : value) :
  outcome d = inl (UnsupportedValueError "extrapolator" v ExtrapolatorType) <->
  keys_supported d = true /\
  py_in (effective_noise_amplifier d) (get_args NoiseAmplifierType) = true /\
  v = get d "extrapolator" VNone /\
  py_in v (get_args ExtrapolatorType) = false.
Proof.
  rewrite outcome_checks. split.
  - intros H.
    destruct (checks_inl_passed d _ H) as [K A];
      try (intros ? E; exn_inv E).
    repeat split; try assumption;
      apply checks_inl in H;
      inversion H as [o F E| F A' E | F A' E | n g F E | m F L E];
      try (exn_inv E); congruence.
  - intros [K [A [-> E]]]. rewrite (checks_tail d K A), E. reflexivity.
Qed.

Lemma X4_extrapolator_error_iff_witness :
  outcome d_legal_amplifier
  <> inl (UnsupportedValueError "extrapolator" VNone ExtrapolatorType).
Proof.
  intros H. apply (proj1 (X4_extrapolator_error_iff d_legal_amplifier _)) in H.
  destruct H as [_ [_ [H _]]]. discriminate H.
Defined.

(** X5: the method fails with the quartic error exactly when every key is
    recognised, the noise amplifier check passes, [extrapolator] is
    ["QuarticExtrapolator"] and [noise_factors] has a length below 5; and
    with the cubic error exactly when, likewise, [extrapolator] is
    ["CubicExtrapolator"] and the length is below 4. *)
Theorem X5_insufficient_iff (d : dict) :
  (outcome d = inl (InsufficientNoiseFactorsError "QuarticExtrapolator" "5") <->
   keys_supported d = true /\
   py_in (effective_noise_amplifier d) (get_args NoiseAmplifierType) = true /\
   get d "extrapolator" VNone = VStr "QuarticExtrapolator" /\
   exists n, len (get d "noise_factors" VNone) = inr n /\ n < 5) /\
  (outcome d = inl (InsufficientNoiseFactorsError "CubicExtrapolator" "4") <->
   keys_supported d = true /\
   py_in (effective_noise_amplifier d) (get_args NoiseAmplifierType) = true /\
   get d "extrapolator" VNone = VStr "CubicExtrapolator" /\
   exists n, len (get d "noise_factors" VNone) = inr n /\ n < 4).
Proof.
  rewrite outcome_checks. split; split.
  - intros H.
    destruct (checks_inl_passed d _ H) as [K A];
      try (intros; intros E; exn_inv E).
    rewrite (checks_tail d K A) in H.
    destruct (py_in (get d "extrapolator" VNone) _); cbn [negb] in H;
      [|exn_inv H].
    destruct (eq_str _ "QuarticExtrapolator") eqn:EQ.
    { apply eq_str_true in EQ. apply length_check_few in H. tauto. }
    destruct (eq_str _ "CubicExtrapolator") eqn:EC; [|discriminate H].
    exfalso. unfold length_check in H.
    destruct (len _) as [e|n] eqn:L.
    + inversion H. subst e. apply len_inl in L. destruct L as [m L].
      discriminate L.
    + destruct (n <? 4); [exn_inv H | discriminate H].
  - intros [K [A [E L]]]. rewrite (checks_quartic d K A E).
    now apply length_check_few.
  - intros H.
    destruct (checks_inl_passed d _ H) as [K A];
      try (intros; intros E; exn_inv E).
    rewrite (checks_tail d K A) in H.
    destruct (py_in (get d "extrapolator" VNone) _); cbn [negb] in H;
      [|exn_inv H].
    destruct (eq_str _ "QuarticExtrapolator") eqn:EQ.
    { exfalso. unfold length_check in H.
      destruct (len _) as [e|n] eqn:L.
      + inversion H. subst e. apply len_inl in L. destruct L as [m L].
        discriminate L.
      + destruct (n <? 5); [exn_inv H | discriminate H]. }
    destruct (eq_str _ "CubicExtrapolator") eqn:EC; [|discriminate H].
    apply eq_str_true in EC. apply length_check_few in H. tauto.
  - intros [K [A [E L]]]. rewrite (checks_cubic d K A E).
    now apply length_check_few.
Qed.

Lemma X5_insufficient_iff_witness :
  outcome d_cubic3 = inl (InsufficientNoiseFactorsError "CubicExtrapolator" "4").
Proof.
  apply (proj2 (proj2 (X5_insufficient_iff d_cubic3))).
  repeat split. exists 3. split; [reflexivity | lia].
Defined.

(** *** The order of the bindings *)

Lemma str_keys_cons (k v : value) (d : dict) :
  str_keys ((k, v) :: d)
  = ((match k with VStr s => [s] | _ => [] end) ++ str_keys d)%list.
Proof. reflexivity. Qed.

Lemma str_keys_perm (d d' : dict) :
  Permutation d d' -> Permutation (str_keys d) (str_keys d').
Proof.
  intros P. unfold str_keys, keys.
  apply Permutation_flat_map. now apply Permutation_map.
Qed.

Lemma get_perm (d d' : dict) (k : string) (default : value) :
  Permutation d d' -> unique_str_keys d ->
  get d k default = get d' k default.
Proof.
  unfold unique_str_keys. intros P. induction P as
    [| [kx vx] l l' P IH | [kx vx] [ky vy] l | l l' l'' P1 IH1 P2 IH2];
    intros U.
  - reflexivity.
  - cbn [get]. rewrite str_keys_cons in U. apply NoDup_app_remove_l in U.
    now rewrite (IH U).
  - cbn [get].
    destruct (eq_str ky k) eqn:Y, (eq_str kx k) eqn:X; try reflexivity.
    apply eq_str_true in Y, X. subst kx ky. exfalso.
    rewrite !str_keys_cons in U. cbn in U. inversion U as [|? ? N _].
    apply N. now left.
  - rewrite (IH1 U). apply IH2.
    exact (Permutation_NoDup (str_keys_perm _ _ P1) U).
Qed.

Lemma keys_supported_perm (d d' : dict) :
  Permutation d d' -> keys_supported d = keys_supported d'.
Proof.
  unfold keys_supported, keys. intros P.
  induction P as [| x l l' P IH | x y l | l l' l'' P1 IH1 P2 IH2]; cbn.
  - reflexivity.
  - now rewrite IH.
  - now rewrite !andb_assoc, (andb_comm (supported_key (fst x))).
  - congruence.
Qed.

(** With every key recognised, [checks] depends on the values bound to the
    three names only. *)
Lemma checks_values (d d' : dict) :
  keys_supported d = true -> keys_supported d' = true ->
  (forall k, get d k VNone = get d' k VNone) ->
  checks d = checks d'.
Proof.
  intros K K' G. unfold checks, effective_noise_amplifier, length_check.
  rewrite (proj2 (first_unsupported_None d) K),
          (proj2 (first_unsupported_None d') K').
  now rewrite !G.
Qed.

(** X6: for a mapping that binds each [str] key once, the order of the
    bindings matters only for the key that the error of the key check names:
    two orderings are accepted together, and end alike when every key is
    recognised; otherwise both fail at the key check. *)
Theorem X6_order_of_bindings (d d' : dict) :
  Permutation d d' -> unique_str_keys d ->
  (outcome d = inr tt <-> outcome d' = inr tt) /\
  (keys_supported d = true -> outcome d = outcome d') /\
  (keys_supported d = false ->
   exists opt opt', outcome d = inl (UnsupportedOptionError opt) /\
                    outcome d' = inl (UnsupportedOptionError opt')).
Proof.
  intros P U.
  assert (G : forall k, get d k VNone = get d' k VNone)
    by (intros k; now apply get_perm).
  assert (KP := keys_supported_perm d d' P).
  rewrite !outcome_checks.
  assert (B : keys_supported d = false ->
              exists opt opt', checks d = inl (UnsupportedOptionError opt) /\
                               checks d' = inl (UnsupportedOptionError opt')).
  { intros K. unfold checks.
    destruct (first_unsupported d) as [opt|] eqn:F.
    2:{ apply first_unsupported_None in F. congruence. }
    destruct (first_unsupported d') as [opt'|] eqn:F'.
    2:{ apply first_unsupported_None in F'. congruence. }
    now exists opt, opt'. }
  split; [|split; [|exact B]].
  - destruct (keys_supported d) eqn:K.
    + now rewrite (checks_values d d' K (eq_sym KP) G).
    + destruct (B eq_refl) as [opt [opt' [-> ->]]]. split; discriminate.
  - intros K. apply checks_values; congruence.
Qed.

Lemma X6_order_of_bindings_witness : outcome d_quartic5_rev = inr tt.
Proof.
  apply (X6_order_of_bindings d_quartic5 d_quartic5_rev).
  - apply perm_swap.
  - unfold unique_str_keys. cbn. repeat constructor; cbn; intuition discriminate.
  - reflexivity.
Defined.

(** *** Mappings that differ in one field *)

(** X7: supplying more noise factors never turns an accepted mapping into a
    rejected one: if a mapping is accepted, so is every mapping with the
    same keys, noise amplifier and extrapolator whose [noise_factors] is at
    least as long. *)
Theorem X7_more_noise_factors (d d' : dict) (n n' : Z) :
  keys d = keys d' ->
  get d "noise_amplifier" VNone = get d' "noise_amplifier" VNone ->
  get d "extrapolator" VNone = get d' "extrapolator" VNone ->
  len (get d "noise_factors" VNone) = inr n ->
  len (get d' "noise_factors" VNone) = inr n' ->
  n <= n' ->
  outcome d = inr tt -> outcome d' = inr tt.
Proof.
  intros K A E L L' Le. rewrite !outcome_checks, !checks_accepts.
  unfold keys_supported, effective_noise_amplifier. rewrite <- K, <- A, <- E.
  intros [HK [HA [HE [Q C]]]]. repeat split; try assumption.
  - intros X. destruct (Q X) as [m [Lm Hm]]. exists n'. split; [exact L'|].
    rewrite L in Lm. inversion Lm. lia.
  - intros X. destruct (C X) as [m [Lm Hm]]. exists n'. split; [exact L'|].
    rewrite L in Lm. inversion Lm. lia.
Qed.

Lemma X7_more_noise_factors_witness : outcome d_quartic6 = inr tt.
Proof.
  apply (X7_more_noise_factors d_quartic5 d_quartic6 5 6);
    (reflexivity || lia).
Defined.

(** X8: ["QuarticExtrapolator"] asks the most: if a mapping with that
    extrapolator is accepted, so is every mapping with the same keys, noise
    amplifier and noise factors and any legal extrapolator. *)
Theorem X8_quartic_asks_most (d d' : dict) :
  keys d = keys d' ->
  get d "noise_amplifier" VNone = get d' "noise_amplifier" VNone ->
  get d "noise_factors" VNone = get d' "noise_factors" VNone ->
  get d "extrapolator" VNone = VStr "QuarticExtrapolator" ->
  py_in (get d' "extrapolator" VNone) (get_args ExtrapolatorType) = true ->
  outcome d = inr tt -> outcome d' = inr tt.
Proof.
  intros K A F E E'. rewrite !outcome_checks, !checks_accepts.
  unfold keys_supported, effective_noise_amplifier. rewrite <- K, <- A, <- F.
  intros [HK [HA [HE [Q C]]]]. destruct (Q E) as [n [L Hn]].
  repeat split; try assumption; intros _; exists n; split; (exact L || lia).
Qed.

Lemma X8_quartic_asks_most_witness : outcome d_cubic5 = inr tt.
Proof.
  apply (X8_quartic_asks_most d_quartic5 d_cubic5); reflexivity.
Defined.

(** X9: a noise amplifier that is not [None] but falsy (the empty string,
    [0], [False], an empty tuple or list, a zero float) is announced as
    deprecated and then checked as if it were ["TwoQubitAmplifier"]: the
    method issues the notice and ends as on the mapping that binds
    ["TwoQubitAmplifier"] in its place. *)
Theorem X9_falsy_noise_amplifier (d d' : dict) :
  get d "noise_amplifier" VNone <> VNone ->
  truthy (get d "noise_amplifier" VNone) = false ->
  keys d = keys d' ->
  get d' "noise_amplifier" VNone = VStr "TwoQubitAmplifier" ->
  get d "extrapolator" VNone = get d' "extrapolator" VNone ->
  get d "noise_factors" VNone = get d' "noise_factors" VNone ->
  notices d = [deprecation_notice] /\
  notices d' = [deprecation_notice] /\
  outcome d = outcome d'.
Proof.
  intros N T K A E F. rewrite !notices_emitted, !outcome_checks.
  unfold emitted. rewrite A. cbn [is_None]. repeat split.
  - destruct (get d "noise_amplifier" VNone); try reflexivity. now contradict N.
  - unfold checks, first_unsupported, effective_noise_amplifier, py_or,
      length_check.
    now rewrite T, A, <- K, <- E, <- F.
Qed.

Lemma X9_falsy_noise_amplifier_witness :
  notices d_zero_amplifier = [deprecation_notice] /\
  notices d_default_amplifier = [deprecation_notice] /\
  outcome d_zero_amplifier = outcome d_default_amplifier.
Proof.
  apply (X9_falsy_noise_amplifier d_zero_amplifier d_default_amplifier);
    (reflexivity || discriminate).
Defined.

(** *** The key loop *)

Lemma first_unsupported_app (d1 d2 : dict) :
  keys_supported d1 = true ->
  first_unsupported (d1 ++ d2)%list = first_unsupported d2.
Proof.
  unfold first_unsupported, keys_supported, keys.
  induction d1 as [|[k v] d1 IH]; cbn [app map fst find forallb];
    [reflexivity|].
  destruct (supported_key k); cbn [negb andb]; [exact IH | discriminate].
Qed.

(** X10: the error of the key check names the first unrecognised key in
    iteration order, whatever the bindings after it and whatever the values:
    when every key before a binding is recognised and its own key is not,
    the method fails with the error naming that key. *)
Theorem X10_first_unsupported_key (d1 d2 : dict) (k v : value) :
  keys_supported d1 = true ->
  supported_key k = false ->
  outcome (d1 ++ (k, v) :: d2)%list = inl (UnsupportedOptionError k).
Proof.
  intros K1 Kk. rewrite outcome_checks.
  unfold checks. rewrite (first_unsupported_app _ _ K1).
  unfold first_unsupported. cbn [keys map fst find]. now rewrite Kk.
Qed.

Lemma X10_first_unsupported_key_witness :
  outcome d_quartic3_foo = inl (UnsupportedOptionError (VStr "foo")).
Proof.
  apply (X10_first_unsupported_key d_quartic3 [] (VStr "foo") (VInt 1));
    reflexivity.
Defined.

(** *** [None] and absence *)

Lemma has_key_app (d1 d2 : dict) (k : string) :
  has_key (d1 ++ d2)%list k = has_key d1 k || has_key d2 k.
Proof. unfold has_key, keys. now rewrite map_app, existsb_app. Qed.

Lemma get_app (d1 d2 : dict) (k : string) (default : value) :
  get (d1 ++ d2)%list k default
  = if has_key d1 k then get d1 k default else get d2 k default.
Proof.
  induction d1 as [|[k' v] d1 IH]; [reflexivity|].
  cbn [app get]. unfold has_key, keys in *. cbn [map fst existsb].
  destruct (eq_str k' k); [reflexivity | exact IH].
Qed.

Lemma get_insert_None (d1 d2 : dict) (k k' : string) :
  has_key (d1 ++ d2)%list k = false ->
  get (d1 ++ (VStr k, VNone) :: d2)%list k' VNone
  = get (d1 ++ d2)%list k' VNone.
Proof.
  rewrite has_key_app. intros H. apply orb_false_iff in H. destruct H as [_ H2].
  rewrite !get_app. destruct (has_key d1 k'); [reflexivity|].
  cbn [get]. destruct (eq_str (VStr k) k') eqn:E; [|reflexivity].
  apply eq_str_true in E. inversion E. subst k'.
  now rewrite (get_absent _ _ _ H2).
Qed.

Lemma first_unsupported_insert (d1 d2 : dict) (k v : value) :
  supported_key k = true ->
  first_unsupported (d1 ++ (k, v) :: d2)%list = first_unsupported (d1 ++ d2)%list.
Proof.
  intros S. unfold first_unsupported, keys.
  induction d1 as [|[k1 v1] d1 IH]; cbn [app map fst find].
  - now rewrite S.
  - destruct (supported_key k1); cbn [negb]; [exact IH | reflexivity].
Qed.

(** X11: binding a recognised option to [None] is the same as leaving it
    out: inserting such a binding anywhere into a mapping that lacks the
    key does not change how the method ends. *)
Theorem X11_None_as_absent (d1 d2 : dict) (k : string) :
  In k (get_args ResilienceSupportedOptions) ->
  has_key (d1 ++ d2)%list k = false ->
  outcome (d1 ++ (VStr k, VNone) :: d2)%list = outcome (d1 ++ d2)%list.
Proof.
  intros I H. rewrite !outcome_checks.
  assert (S : supported_key (VStr k) = true).
  { apply py_in_true. now exists k. }
  unfold checks, effective_noise_amplifier, length_check.
  rewrite (first_unsupported_insert _ _ _ VNone S).
  now rewrite !(get_insert_None _ _ _ _ H).
Qed.

Lemma X11_None_as_absent_witness :
  outcome ((VStr "noise_amplifier", VNone) :: d_cubic4) = outcome d_cubic4.
Proof.
  apply (X11_None_as_absent [] d_cubic4 "noise_amplifier");
    [now left | reflexivity].
Defined.

(** *** What an accepted mapping looks like *)

Lemma keys_str_keys (d : dict) :
  keys_supported d = true -> keys d = map VStr (str_keys d).
Proof.
  unfold keys_supported, str_keys, keys.
  induction d as [|[k v] d IH]; cbn [map fst forallb flat_map];
    [reflexivity|].
  intros H. apply andb_true_iff in H. destruct H as [Hk Hd].
  apply py_in_true in Hk. destruct Hk as [s [_ ->]]. cbn [app map].
  now rewrite <- (IH Hd).
Qed.

(** X12: an accepted mapping binds [extrapolator], has only keys among the
    three recognised strings, binds [noise_factors] when its extrapolator is
    ["QuarticExtrapolator"] or ["CubicExtrapolator"], and, binding each
    [str] key once, holds at most three bindings. *)
Theorem X12_accepted_shape (d : dict) :
  outcome d = inr tt ->
  has_key d "extrapolator" = true /\
  (forall opt, In opt (keys d) ->
               In opt (map VStr (get_args ResilienceSupportedOptions))) /\
  (get d "extrapolator" VNone = VStr "QuarticExtrapolator" \/
   get d "extrapolator" VNone = VStr "CubicExtrapolator" ->
   has_key d "noise_factors" = true) /\
  (unique_str_keys d -> (List.length d <= 3)%nat).
Proof.
  rewrite outcome_checks, checks_accepts. intros [K [A [E [Q C]]]].
  split; [|split; [|split]].
  - destruct (has_key d "extrapolator") eqn:H; [reflexivity|].
    rewrite (get_absent _ _ _ H) in E. discriminate E.
  - now apply keys_supported_true.
  - intros X.
    assert (L : exists n, len (get d "noise_factors" VNone) = inr n).
    { destruct X as [X|X]; [destruct (Q X) as [n [L _]]
                           |destruct (C X) as [n [L _]]]; now exists n. }
    destruct (has_key d "noise_factors") eqn:H; [reflexivity|].
    rewrite (get_absent _ _ _ H) in L. destruct L as [n L]. discriminate L.
  - intros U. unfold unique_str_keys in U.
    assert (Len : List.length d = List.length (str_keys d)).
    { rewrite <- (length_map fst d). fold (keys d).
      now rewrite (keys_str_keys d K), length_map. }
    rewrite Len.
    apply (NoDup_incl_length U (l' := get_args ResilienceSupportedOptions)).
    intros s Hs.
    assert (Hk : In (VStr s) (keys d)).
    { rewrite (keys_str_keys d K). now apply in_map. }
    apply (proj1 (keys_supported_true d) K) in Hk.
    apply in_map_iff in Hk. destruct Hk as [s' [Eq Hs']].
    inversion Eq. now subst s'.
Qed.

Lemma X12_accepted_shape_witness : has_key d_cubic4 "noise_factors" = true.
Proof.
  apply (X12_accepted_shape d_cubic4); [reflexivity | now right].
Defined.

(** *** The declared default of [noise_factors] *)

(** X13: as the docstring of the class notes, the declared default
    [noise_factors] (1, 3, 5) is enough for ["LinearExtrapolator"] and
    ["QuadraticExtrapolator"] and too short for the other two: a mapping
    that binds it, with every key recognised and a legal noise amplifier,
    is accepted under the first two, and fails with the cubic and the
    quartic error under ["CubicExtrapolator"] and ["QuarticExtrapolator"]. *)
Theorem X13_default_noise_factors (d : dict) :
  keys_supported d = true ->
  py_in (effective_noise_amplifier d) (get_args NoiseAmplifierType) = true ->
  get d "noise_factors" VNone = noise_factors ResilienceOptions_default ->
  (get d "extrapolator" VNone = extrapolator ResilienceOptions_default \/
   get d "extrapolator" VNone = VStr "QuadraticExtrapolator" ->
   outcome d = inr tt) /\
  (get d "extrapolator" VNone = VStr "CubicExtrapolator" ->
   outcome d = inl (InsufficientNoiseFactorsError "CubicExtrapolator" "4")) /\
  (get d "extrapolator" VNone = VStr "QuarticExtrapolator" ->
   outcome d = inl (InsufficientNoiseFactorsError "QuarticExtrapolator" "5")).
Proof.
  intros K A F. rewrite outcome_checks, (checks_tail d K A).
  unfold length_check. rewrite F. repeat split.
  - intros [E|E]; rewrite E; reflexivity.
  - intros E; rewrite E; reflexivity.
  - intros E; rewrite E; reflexivity.
Qed.

Lemma X13_default_noise_factors_witness :
  outcome (asdict ResilienceOptions_default) = inr tt.
Proof.
  apply (X13_default_noise_factors (asdict ResilienceOptions_default));
    try reflexivity. now left.
Defined.
